(** * node-mlx: the N-API bridge of [native/src/binding.cc]

    A shallow embedding of the bridge that loads the node-mlx dynamic
    library, resolves its six entry points and forwards the host's calls
    through them, together with the properties of its loading sequence,
    its precondition checks, its argument marshalling and its ownership
    protocol for native strings.

    Conventions of the embedding:
    - the process-wide statics ([dylib_handle], [fn_load_model], ...) are
      the fields of the record [bridge]; [nullptr] is [None];
    - a resolved function pointer is the code it points to, a function
      over the state [N] of the native side;
    - every loader operation, native call and read of native memory is
      recorded, in order, in the [trace] of the [world];
    - a JavaScript exception left pending by [ThrowAsJavaScriptException]
      is the outcome [Thrown]; the C++ return value that accompanies it is
      never seen by the host and is not modelled;
    - a call through a null function pointer, which the source does not
      guard against everywhere, is the outcome [Crashed];
    - a call through a pointer that was resolved in a library closed
      since runs the code the pointer was resolved to; the [EvDlclose]
      that precedes the call in the trace tells the two apart. *)

From Stdlib Require Import ZArith String List Bool Lia.
From Stdlib Require Import Floats.SpecFloat.
From stdpp Require Import base option gmap strings list.

Local Open Scope string_scope.
Local Open Scope list_scope.
Local Open Scope Z_scope.

(** ** Host values *)

(** A JavaScript number is an IEEE-754 double, [(-1)^s * m * 2^e] for
    [S754_finite s m e]; the mantissa need not be normalised. *)
Definition number := spec_float.

(** A C [float]: a binary32 value, in the same representation. *)
Definition float32 := spec_float.

(** Strings are their UTF-8 bytes, as [Utf8Value] delivers them. An object
    is the finite map of its own properties: [Has] and [Get] are lookups
    in it (inherited properties and accessors are not modelled). *)
#[warnings="-register-all"]
Inductive js_value : Type :=
| JsUndefined
| JsNull
| JsBoolean (b : bool)
| JsNumber (d : number)
| JsString (s : string)
| JsObject (props : gmap string js_value).

Inductive js_error : Type :=
| Error (msg : string)
| TypeError (msg : string).

Inductive outcome : Type :=
| Returned (v : js_value)
| Thrown (e : js_error)
| Crashed.

Definition IsString (v : js_value) : bool :=
  match v with JsString _ => true | _ => false end.

Definition IsNumber (v : js_value) : bool :=
  match v with JsNumber _ => true | _ => false end.

Definition IsObject (v : js_value) : bool :=
  match v with JsObject _ => true | _ => false end.

(** [info[i]]: an index past the arguments reads [undefined]. *)
Definition arg (info : list js_value) (i : nat) : js_value :=
  nth i info JsUndefined.

(** [As<Napi::String>().Utf8Value()]; only ever applied after [IsString]. *)
Definition Utf8Value (v : js_value) : string :=
  match v with JsString s => s | _ => "" end.

(** ** Number conversions *)

(** Reduction to a signed 32-bit value. *)
Definition wrap32 (z : Z) : Z := (z + 2 ^ 31) mod 2 ^ 32 - 2 ^ 31.

Definition in_int32 (z : Z) : Prop := - 2 ^ 31 <= z < 2 ^ 31.

(** The integer part of [m * 2^e], for a positive [m]. *)
Definition truncate (m : positive) (e : Z) : Z :=
  if 0 <=? e then Z.pos m * 2 ^ e else Z.pos m / 2 ^ (- e).

(** [napi_get_value_int32] on a number: truncation, then the low 32 bits;
    NaN and the infinities give 0. *)
Definition ToInt32 (d : number) : Z :=
  match d with
  | S754_finite s m e => wrap32 (if s then - truncate m e else truncate m e)
  | _ => 0
  end.

(** [napi_get_value_double] followed by the conversion to [float]:
    rounding to the nearest binary32 value, ties to even. *)
Definition ToFloat (d : number) : float32 :=
  match d with
  | S754_finite s m e => binary_round 24 128 s m e
  | _ => d
  end.

(** [As<Napi::Number>().Int32Value()]. [As] does not check the type; the
    conversion itself reports [napi_number_expected] on anything but a
    number, which is [None] here. *)
Definition Int32Value (v : js_value) : option Z :=
  match v with JsNumber d => Some (ToInt32 d) | _ => None end.

(** [As<Napi::Number>().FloatValue()]. *)
Definition FloatValue (v : js_value) : option float32 :=
  match v with JsNumber d => Some (ToFloat d) | _ => None end.

(** [Napi::Number::New(env, handle)] for an [int32_t]: the conversion to
    double is exact. *)
Definition Number_of_int32 (z : Z) : number :=
  match z with
  | Z0 => S754_zero false
  | Zpos m => S754_finite false m 0
  | Zneg m => S754_finite true m 0
  end.

(** The error node-addon-api raises for a failed conversion; the call
    ends there, as it does when the addon is built with C++ exceptions. *)
Definition number_expected : js_error := Error "A number was expected".

(** ** Defaults of a generation request *)

Definition default_maxTokens : Z := 256.

(** [0.7f] is [0x3F333333] and [0.9f] is [0x3F666666]. *)
Definition default_temperature : float32 := S754_finite false 11744051 (-24).
Definition default_topP : float32 := S754_finite false 15099494 (-24).

(** The version reported when the library gives none. *)
Definition fallback_version : string := "0.1.0".

(** ** The generation request as the specification words it *)

(** A key that is supplied holds a number. *)
Definition number_or_absent (options : gmap string js_value) (key : string)
  : bool :=
  match options !! key with
  | Some v => IsNumber v
  | None => true
  end.

(** The recognised keys of an options object are typed as documented:
    [maxTokens] (int), [temperature] (float), [topP] (float). *)
Definition well_typed (options : gmap string js_value) : bool :=
  number_or_absent options "maxTokens"
  && number_or_absent options "temperature"
  && number_or_absent options "topP".

(** Each parameter is the value supplied under its key, or its default:
    256, 0.7, 0.9. Written from the specification, to compare with what
    [Generate] forwards. *)
Definition spec_maxTokens (options : gmap string js_value) : Z :=
  match options !! "maxTokens" with
  | Some (JsNumber d) => ToInt32 d
  | _ => 256
  end.

Definition spec_temperature (options : gmap string js_value) : float32 :=
  match options !! "temperature" with
  | Some (JsNumber d) => ToFloat d
  | _ => S754_finite false 11744051 (-24)
  end.

Definition spec_topP (options : gmap string js_value) : float32 :=
  match options !! "topP" with
  | Some (JsNumber d) => ToFloat d
  | _ => S754_finite false 15099494 (-24)
  end.

(** ** The native side *)

(** A [char*]; 0 is the null pointer. *)
Definition ptr := Z.

(** What the bridge does outside itself, in order. *)
Inductive event : Type :=
| EvDlopen (path : string) (opened : bool)
| EvDlsym (symbol : string) (found : bool)
| EvDlclose
| EvLoadModel (model_id : string) (ret : Z)
| EvUnloadModel (handle : Z)
| EvGenerate (handle : Z) (prompt : string) (max_tokens : Z)
             (temperature top_p : float32) (ret : ptr)
| EvFreeString (p : ptr)
| EvIsAvailable (ret : bool)
| EvVersion (ret : ptr)
| EvReadString (p : ptr).

Definition is_native_call (ev : event) : bool :=
  match ev with
  | EvLoadModel _ _ | EvUnloadModel _ | EvGenerate _ _ _ _ _ _
  | EvFreeString _ | EvIsAvailable _ | EvVersion _ => true
  | _ => false
  end.

Definition is_loader_event (ev : event) : bool :=
  match ev with
  | EvDlopen _ _ | EvDlsym _ _ | EvDlclose => true
  | _ => false
  end.

Definition is_free (ev : event) : bool :=
  match ev with EvFreeString _ => true | _ => false end.

Definition is_open (ev : event) : bool :=
  match ev with EvDlopen _ true => true | _ => false end.

Definition is_close (ev : event) : bool :=
  match ev with EvDlclose => true | _ => false end.

Definition loader_events (t : list event) : list event :=
  List.filter is_loader_event t.

Definition native_calls (t : list event) : list event :=
  List.filter is_native_call t.

(** How many times a pointer was handed to the free-string entry point,
    a library was opened, a library was closed. *)
Definition frees (t : list event) : nat :=
  length (List.filter is_free t).

Definition opened (t : list event) : nat :=
  length (List.filter is_open t).

Definition closed (t : list event) : nat :=
  length (List.filter is_close t).

(** What the trace gains when the generate entry point is called with
    the given parameters and returns [p]. *)
Definition generate_events (h : Z) (prompt : string) (mt : Z)
    (t tp : float32) (p : ptr) : list event :=
  EvGenerate h prompt mt t tp p
  :: (if p =? 0 then [] else [EvReadString p; EvFreeString p]).

Section Bridge.

(** The state of the native side: its models, its heap. *)
Context {N : Type}.

(** The six prototypes of [node_mlx.h]. An [int32_t] is a [Z]; a string
    argument is the buffer [c_str()] points to. *)
Definition LoadModelFn : Type := string -> N -> Z * N.
Definition UnloadModelFn : Type := Z -> N -> N.
Definition GenerateFn : Type :=
  Z -> string -> Z -> float32 -> float32 -> N -> ptr * N.
Definition FreeStringFn : Type := ptr -> N -> N.
Definition IsAvailableFn : Type := N -> bool * N.
Definition GetVersionFn : Type := N -> ptr * N.

(** A library image: for each of the six symbols, what [dlsym] finds. *)
Record dylib : Type := {
  node_mlx_load_model : option LoadModelFn;
  node_mlx_unload_model : option UnloadModelFn;
  node_mlx_generate : option GenerateFn;
  node_mlx_free_string : option FreeStringFn;
  node_mlx_is_available : option IsAvailableFn;
  node_mlx_version : option GetVersionFn
}.

Inductive dlopen_result : Type :=
| Opened (lib : dylib)
| OpenFailed (dlerror : string).

(** The dynamic loader: what [dlopen] does with a path. *)
Variable dlopen : string -> dlopen_result.

(** The C string stored at an address of native memory. *)
Variable cstr : N -> ptr -> string.

(** Whether the bridge was compiled for Apple arm64. *)
Variable apple_arm64 : bool.

Record world : Type := {
  native : N;
  trace : list event
}.

(** A native call or a read: the native side moves on and the event is
    appended. *)
Definition log (ev : event) (n : N) (w : world) : world :=
  {| native := n; trace := trace w ++ [ev] |}.

Definition logs (evs : list event) (w : world) : world :=
  {| native := native w; trace := trace w ++ evs |}.

(** ** The process-wide state *)

Record bridge : Type := {
  dylib_handle : option dylib;
  fn_load_model : option LoadModelFn;
  fn_unload_model : option UnloadModelFn;
  fn_generate : option GenerateFn;
  fn_free_string : option FreeStringFn;
  fn_is_available : option IsAvailableFn;
  fn_get_version : option GetVersionFn
}.

(** The statics as the process starts. *)
Definition fresh : bridge :=
  {| dylib_handle := None; fn_load_model := None; fn_unload_model := None;
     fn_generate := None; fn_free_string := None; fn_is_available := None;
     fn_get_version := None |}.

Definition null {A : Type} (p : option A) : bool :=
  match p with None => true | Some _ => false end.

Definition set_dylib_handle (h : option dylib) (st : bridge) : bridge :=
  {| dylib_handle := h; fn_load_model := fn_load_model st;
     fn_unload_model := fn_unload_model st; fn_generate := fn_generate st;
     fn_free_string := fn_free_string st;
     fn_is_available := fn_is_available st;
     fn_get_version := fn_get_version st |}.

(** ** Initialize *)

(** The six [dlsym] assignments. *)
Definition resolve (lib : dylib) : bridge :=
  {| dylib_handle := Some lib;
     fn_load_model := node_mlx_load_model lib;
     fn_unload_model := node_mlx_unload_model lib;
     fn_generate := node_mlx_generate lib;
     fn_free_string := node_mlx_free_string lib;
     fn_is_available := node_mlx_is_available lib;
     fn_get_version := node_mlx_version lib |}.

Definition resolve_events (lib : dylib) : list event :=
  [ EvDlsym "node_mlx_load_model" (negb (null (node_mlx_load_model lib)));
    EvDlsym "node_mlx_unload_model" (negb (null (node_mlx_unload_model lib)));
    EvDlsym "node_mlx_generate" (negb (null (node_mlx_generate lib)));
    EvDlsym "node_mlx_free_string" (negb (null (node_mlx_free_string lib)));
    EvDlsym "node_mlx_is_available" (negb (null (node_mlx_is_available lib)));
    EvDlsym "node_mlx_version" (negb (null (node_mlx_version lib))) ].

(** The text accumulated in [missing]. *)
Definition missing (st : bridge) : string :=
  (if null (fn_load_model st) then "node_mlx_load_model " else "") +:+
  (if null (fn_generate st) then "node_mlx_generate " else "") +:+
  (if null (fn_free_string st) then "node_mlx_free_string " else "").

Definition Initialize (info : list js_value) (st : bridge) (w : world)
  : outcome * bridge * world :=
  if negb (null (dylib_handle st)) then (Returned (JsBoolean true), st, w)
  else if (0 <? length info)%nat && IsString (arg info 0) then
    let dylibPath := Utf8Value (arg info 0) in
    match dlopen dylibPath with
    | OpenFailed diagnostic =>
        (Thrown (Error ("Failed to load dylib at " +:+ dylibPath +:+ ": "
                        +:+ diagnostic)),
         set_dylib_handle None st,
         logs [EvDlopen dylibPath false] w)
    | Opened lib =>
        let st1 := resolve lib in
        let w1 := logs (EvDlopen dylibPath true :: resolve_events lib) w in
        if null (fn_load_model st1) || null (fn_generate st1)
           || null (fn_free_string st1)
        then (Thrown (Error ("Failed to load functions: " +:+ missing st1)),
              set_dylib_handle None st1,
              logs [EvDlclose] w1)
        else (Returned (JsBoolean true), st1, w1)
    end
  else (Thrown (Error "dylibPath argument required"), st, w).

(** ** IsInitialized *)

Definition IsInitialized (info : list js_value) (st : bridge) (w : world)
  : outcome * world :=
  (Returned (JsBoolean (negb (null (dylib_handle st)))), w).

(** ** LoadModel *)

Definition LoadModel (info : list js_value) (st : bridge) (w : world)
  : outcome * world :=
  match fn_load_model st with
  | None =>
      (Thrown (Error "Library not initialized. Call initialize() first."), w)
  | Some load_model =>
      if (length info <? 1)%nat || negb (IsString (arg info 0)) then
        (Thrown (TypeError "Model ID string required"), w)
      else
        let modelId := Utf8Value (arg info 0) in
        let '(handle, n1) := load_model modelId (native w) in
        let w1 := log (EvLoadModel modelId handle) n1 w in
        if handle <? 0 then
          (Thrown (Error ("Failed to load model: " +:+ modelId)), w1)
        else (Returned (JsNumber (Number_of_int32 handle)), w1)
  end.

(** ** UnloadModel *)

Definition UnloadModel (info : list js_value) (st : bridge) (w : world)
  : outcome * world :=
  match fn_unload_model st with
  | None => (Thrown (Error "Library not initialized"), w)
  | Some unload_model =>
      if (length info <? 1)%nat || negb (IsNumber (arg info 0)) then
        (Thrown (TypeError "Model handle number required"), w)
      else
        match Int32Value (arg info 0) with
        | None => (Thrown number_expected, w)
        | Some handle =>
            (Returned JsUndefined,
             log (EvUnloadModel handle) (unload_model handle (native w)) w)
        end
  end.

(** ** Generate *)

Record request : Type := {
  maxTokens : Z;
  temperature : float32;
  topP : float32
}.

Definition default_request : request :=
  {| maxTokens := default_maxTokens; temperature := default_temperature;
     topP := default_topP |}.

(** [if (options.Has(key)) x = options.Get(key).As<Napi::Number>()...]:
    the value converted when the key is there, [x] as it was otherwise. *)
Definition override {A : Type} (convert : js_value -> option A)
    (options : gmap string js_value) (key : string) (x : A) : option A :=
  match options !! key with
  | Some v => convert v
  | None => Some x
  end.

Definition As_Object (v : js_value) : gmap string js_value :=
  match v with JsObject props => props | _ => ∅ end.

(** The three parameters after the options object, if any, was read.
    A recognised key that does not hold a number makes the conversion
    fail: [None]. *)
Definition parse_options (info : list js_value) : option request :=
  if (2 <? length info)%nat && IsObject (arg info 2) then
    let options := As_Object (arg info 2) in
    mt ← override Int32Value options "maxTokens" default_maxTokens;
    t ← override FloatValue options "temperature" default_temperature;
    p ← override FloatValue options "topP" default_topP;
    Some {| maxTokens := mt; temperature := t; topP := p |}
  else Some default_request.

Definition Generate (info : list js_value) (st : bridge) (w : world)
  : outcome * world :=
  match fn_generate st with
  | None => (Thrown (Error "Library not initialized"), w)
  | Some generate =>
      if (length info <? 2)%nat || negb (IsNumber (arg info 0))
         || negb (IsString (arg info 1))
      then (Thrown (TypeError "Usage: generate(handle, prompt, options?)"), w)
      else
        match Int32Value (arg info 0), parse_options info with
        | Some handle, Some req =>
            let prompt := Utf8Value (arg info 1) in
            let '(jsonResult, n1) :=
              generate handle prompt (maxTokens req) (temperature req)
                       (topP req) (native w) in
            let w1 :=
              log (EvGenerate handle prompt (maxTokens req) (temperature req)
                              (topP req) jsonResult) n1 w in
            if jsonResult =? 0 then
              (Thrown (Error "Generate returned null"), w1)
            else
              let jsonStr := cstr n1 jsonResult in
              let w2 := log (EvReadString jsonResult) n1 w1 in
              match fn_free_string st with
              | None => (Crashed, w2)
              | Some free_string =>
                  (Returned (JsString jsonStr),
                   log (EvFreeString jsonResult) (free_string jsonResult n1)
                       w2)
              end
        | _, _ => (Thrown number_expected, w)
        end
  end.

(** ** IsAvailable *)

Definition IsAvailable (info : list js_value) (st : bridge) (w : world)
  : outcome * world :=
  match fn_is_available st with
  | Some is_available =>
      let '(b, n1) := is_available (native w) in
      (Returned (JsBoolean b), log (EvIsAvailable b) n1 w)
  | None => (Returned (JsBoolean apple_arm64), w)
  end.

(** ** GetVersion *)

Definition GetVersion (info : list js_value) (st : bridge) (w : world)
  : outcome * world :=
  match fn_get_version st with
  | Some get_version =>
      let '(version, n1) := get_version (native w) in
      let w1 := log (EvVersion version) n1 w in
      if version =? 0 then (Returned (JsString fallback_version), w1)
      else
        let versionStr := cstr n1 version in
        let w2 := log (EvReadString version) n1 w1 in
        match fn_free_string st with
        | None => (Crashed, w2)
        | Some free_string =>
            (Returned (JsString versionStr),
             log (EvFreeString version) (free_string version n1) w2)
        end
  | None => (Returned (JsString fallback_version), w)
  end.

(** ** The exported functions *)

Inductive export : Type :=
| initialize
| isInitialized
| loadModel
| unloadModel
| generate
| isAvailable
| getVersion.

(** Only [Initialize] assigns the statics. *)
Definition forward (f : list js_value -> bridge -> world -> outcome * world)
    (info : list js_value) (st : bridge) (w : world)
  : outcome * bridge * world :=
  let '(o, w1) := f info st w in (o, st, w1).

Definition Init (name : export)
  : list js_value -> bridge -> world -> outcome * bridge * world :=
  match name with
  | initialize => Initialize
  | isInitialized => forward IsInitialized
  | loadModel => forward LoadModel
  | unloadModel => forward UnloadModel
  | generate => forward Generate
  | isAvailable => forward IsAvailable
  | getVersion => forward GetVersion
  end.

(** A sequence of host calls, one after the other; a crash ends it. *)
Fixpoint run (calls : list (export * list js_value)) (st : bridge) (w : world)
  : list outcome * bridge * world :=
  match calls with
  | [] => ([], st, w)
  | (name, info) :: rest =>
      let '(o, st1, w1) := Init name info st w in
      match o with
      | Crashed => ([o], st1, w1)
      | _ => let '(os, st2, w2) := run rest st1 w1 in (o :: os, st2, w2)
      end
  end.

(** ** Error kinds *)

(** The two texts with which a forwarding operation reports that the
    library is not initialised. *)
Definition NotInitialized (o : outcome) : Prop :=
  o = Thrown (Error "Library not initialized. Call initialize() first.")
  \/ o = Thrown (Error "Library not initialized").

(** ** States *)

(** A library handle exists and the three mandatory entry points are
    resolved. *)
Definition initialized (st : bridge) : bool :=
  negb (null (dylib_handle st)) && negb (null (fn_load_model st))
  && negb (null (fn_generate st)) && negb (null (fn_free_string st)).

(** The library exports the three mandatory entry points. *)
Definition mandatory_present (lib : dylib) : bool :=
  negb (null (node_mlx_load_model lib)) && negb (null (node_mlx_generate lib))
  && negb (null (node_mlx_free_string lib)).

(** With a library handle, the table is what that library exports and the
    mandatory entry points are there. *)
Definition sound (st : bridge) : Prop :=
  match dylib_handle st with
  | Some lib => st = resolve lib /\ mandatory_present lib = true
  | None => True
  end.

(** The number of libraries the bridge holds open: one or none. *)
Definition held (st : bridge) : nat :=
  if null (dylib_handle st) then 0%nat else 1%nat.

(** Whether a call to [initialize] gets a library opened. *)
Definition opens (c : export * list js_value) : bool :=
  match c with
  | (initialize, JsString path :: _) =>
      match dlopen path with Opened _ => true | OpenFailed _ => false end
  | _ => false
  end.

End Bridge.

Arguments LoadModelFn : clear implicits.
Arguments UnloadModelFn : clear implicits.
Arguments GenerateFn : clear implicits.
Arguments FreeStringFn : clear implicits.
Arguments IsAvailableFn : clear implicits.
Arguments GetVersionFn : clear implicits.
Arguments dylib : clear implicits.
Arguments dlopen_result : clear implicits.
Arguments world : clear implicits.
Arguments bridge : clear implicits.

(** ** A native library to run the bridge against *)

Module Mock.

(** The native heap of C strings, the next free address and the number of
    models loaded so far. *)
Record native_state : Type := {
  heap : gmap Z string;
  next : Z;
  models : Z
}.

Definition cstr (n : native_state) (p : ptr) : string :=
  default "" (heap n !! p).

Definition alloc (s : string) (n : native_state) : ptr * native_state :=
  (next n,
   {| heap := <[next n := s]> (heap n); next := next n + 1;
      models := models n |}).

Definition load_model : LoadModelFn native_state := fun model_id n =>
  if String.eqb model_id "bad-id" then (-1, n)
  else if String.eqb model_id "none" then (0, n)
  else (models n + 3,
        {| heap := heap n; next := next n; models := models n + 1 |}).

Definition unload_model : UnloadModelFn native_state := fun handle n =>
  {| heap := heap n; next := next n; models := models n - 1 |}.

Definition generate : GenerateFn native_state := fun handle prompt max_tokens t p n =>
  if handle <? 3 then (0, n) else alloc ("{}" +:+ prompt) n.

Definition free_string : FreeStringFn native_state := fun p n =>
  {| heap := delete p (heap n); next := next n; models := models n |}.

Definition is_available : IsAvailableFn native_state := fun n => (true, n).

Definition version : GetVersionFn native_state := alloc "1.2.3".

(** All six symbols. *)
Definition full : dylib native_state :=
  {| node_mlx_load_model := Some load_model;
     node_mlx_unload_model := Some unload_model;
     node_mlx_generate := Some generate;
     node_mlx_free_string := Some free_string;
     node_mlx_is_available := Some is_available;
     node_mlx_version := Some version |}.

(** The three mandatory symbols only. *)
Definition minimal : dylib native_state :=
  {| node_mlx_load_model := Some load_model;
     node_mlx_unload_model := None;
     node_mlx_generate := Some generate;
     node_mlx_free_string := Some free_string;
     node_mlx_is_available := None;
     node_mlx_version := None |}.

(** No [node_mlx_generate] and no [node_mlx_free_string]. *)
Definition partial : dylib native_state :=
  {| node_mlx_load_model := Some load_model;
     node_mlx_unload_model := Some unload_model;
     node_mlx_generate := None;
     node_mlx_free_string := None;
     node_mlx_is_available := None;
     node_mlx_version := Some version |}.

Definition dlopen (path : string) : dlopen_result native_state :=
  if String.eqb path "libfull.dylib" then Opened full
  else if String.eqb path "libminimal.dylib" then Opened minimal
  else if String.eqb path "libpartial.dylib" then Opened partial
  else OpenFailed "image not found".

Definition start : world native_state :=
  {| native := {| heap := ∅; next := 1; models := 0 |}; trace := [] |}.

(** The numbers 1, 4 and 10 as the host passes them. *)
Definition one : js_value := JsNumber (S754_finite false 1 0).
Definition four : js_value := JsNumber (S754_finite false 1 2).
Definition ten : js_value := JsNumber (S754_finite false 5 1).

End Mock.

(** ** Notions for whole sequences of calls *)

Definition is_crash (o : outcome) : bool :=
  match o with Crashed => true | _ => false end.

(** The call is an [initialize] and it returned [true]. *)
Definition reports_success (c : export * list js_value) (o : outcome) : bool :=
  match c, o with
  | (initialize, _), Returned (JsBoolean true) => true
  | _, _ => false
  end.

(** Some [initialize] of the sequence returned [true]. *)
Fixpoint initialize_succeeded (calls : list (export * list js_value))
    (outs : list outcome) : bool :=
  match calls, outs with
  | c :: calls, o :: outs =>
      reports_success c o || initialize_succeeded calls outs
  | _, _ => false
  end.

(** The call is an [initialize] with the path of a library that opens but
    lacks a mandatory symbol. *)
Definition opens_incomplete {N : Type} (dlopen : string -> dlopen_result N)
    (c : export * list js_value) : bool :=
  match c with
  | (initialize, JsString path :: _) =>
      match dlopen path with
      | Opened lib => negb (mandatory_present lib)
      | OpenFailed _ => false
      end
  | _ => false
  end.

(** The statics are as at the start, or as a library with the mandatory
    symbols set them. *)
Definition clean {N : Type} (st : bridge N) : Prop :=
  st = fresh \/ exists lib, st = resolve lib /\ mandatory_present lib = true.



(** ** Properties *)

Section Properties.

Context {N : Type}.
Variable dlopen : string -> dlopen_result N.
Variable cstr : N -> ptr -> string.
Variable apple_arm64 : bool.

Local Abbreviation Run := (run dlopen cstr apple_arm64).
Local Abbreviation Call := (Init dlopen cstr apple_arm64).

(** Case analysis along the body of an operation. *)
Ltac run_operation :=
  repeat (simpl in *; case_match; simplify_eq; try done).

(** Counting the events of a trace that ends in the events just logged. *)
Ltac same_events :=
  unfold log, logs, loader_events, native_calls, frees, opened, closed;
  simpl; rewrite ?List.filter_app; simpl;
  rewrite ?app_nil_r, ?length_app; simpl; try done; try lia.

Lemma loader_events_app t1 t2 :
  loader_events (t1 ++ t2) = loader_events t1 ++ loader_events t2.
Proof. apply List.filter_app. Qed.

Lemma native_calls_app t1 t2 :
  native_calls (t1 ++ t2) = native_calls t1 ++ native_calls t2.
Proof. apply List.filter_app. Qed.

Lemma frees_app t1 t2 : frees (t1 ++ t2) = (frees t1 + frees t2)%nat.
Proof. unfold frees. rewrite List.filter_app. apply length_app. Qed.

Lemma set_dylib_handle_None (st : bridge N) :
  dylib_handle st = None -> set_dylib_handle None st = st.
Proof. destruct st; simpl; intros ->; reflexivity. Qed.

Lemma logs_nil (w : world N) : logs [] w = w.
Proof. destruct w; unfold logs; simpl. by rewrite app_nil_r. Qed.

(** *** Initialize on a loaded library *)

Lemma Initialize_loaded info (st : bridge N) w :
  null (dylib_handle st) = false ->
  Initialize dlopen info st w = (Returned (JsBoolean true), st, w).
Proof. unfold Initialize. by intros ->. Qed.

(** A forwarding operation leaves the statics alone and appends no loader
    event. *)
Lemma forward_loader_events name info (st : bridge N) w o st1 w1 :
  name <> initialize ->
  Call name info st w = (o, st1, w1) ->
  st1 = st
  /\ loader_events (trace w1) = loader_events (trace w)
  /\ opened (trace w1) = opened (trace w)
  /\ closed (trace w1) = closed (trace w).
Proof.
  intros Hname Hcall.
  destruct name; try done; simpl in Hcall; unfold forward in Hcall.
  - unfold IsInitialized in Hcall. by simplify_eq.
  - unfold LoadModel in Hcall. run_operation; repeat split; same_events.
  - unfold UnloadModel in Hcall. run_operation; repeat split; same_events.
  - unfold Generate in Hcall. run_operation; repeat split; same_events.
  - unfold IsAvailable in Hcall. run_operation; repeat split; same_events.
  - unfold GetVersion in Hcall. run_operation; repeat split; same_events.
Qed.

Lemma Call_loaded name info (st : bridge N) w o st1 w1 :
  null (dylib_handle st) = false ->
  Call name info st w = (o, st1, w1) ->
  st1 = st /\ loader_events (trace w1) = loader_events (trace w).
Proof.
  intros Hloaded Hcall.
  destruct name;
    try (apply forward_loader_events in Hcall as (-> & Hev & _);
         [done|discriminate]).
  simpl in Hcall. rewrite Initialize_loaded in Hcall by done.
  by simplify_eq.
Qed.

Lemma Run_loaded calls : forall (st : bridge N) w outs st1 w1,
  null (dylib_handle st) = false ->
  Run calls st w = (outs, st1, w1) ->
  st1 = st /\ loader_events (trace w1) = loader_events (trace w).
Proof.
  induction calls as [|[name info] calls IH]; intros st w outs st1 w1 Hl Hrun.
  - simpl in Hrun. by simplify_eq.
  - simpl in Hrun.
    destruct (Call name info st w) as [[o st2] w2] eqn:Hcall.
    destruct (Call_loaded _ _ _ _ _ _ _ Hl Hcall) as [-> Hev].
    destruct (Run calls st w2) as [[os st3] w3] eqn:Hrest.
    destruct (IH _ _ _ _ _ Hl Hrest) as [-> Hev'].
    destruct o; simplify_eq; split; congruence.
Qed.

(** Every library opened is either closed again or the one the bridge
    holds. *)
Lemma Call_balance name info (st : bridge N) w o st1 w1 :
  Call name info st w = (o, st1, w1) ->
  (opened (trace w1) + closed (trace w) + held st
   = opened (trace w) + closed (trace w1) + held st1)%nat.
Proof.
  intros Hcall. destruct name;
    try (apply forward_loader_events in Hcall as (-> & _ & -> & ->);
         [lia|discriminate]).
  simpl in Hcall. unfold Initialize in Hcall.
  destruct (dylib_handle st) eqn:Hh; simpl in Hcall; [by simplify_eq|].
  run_operation; unfold held; simpl; rewrite ?Hh; same_events.
Qed.

Lemma Run_balance calls : forall (st : bridge N) w outs st1 w1,
  Run calls st w = (outs, st1, w1) ->
  (opened (trace w1) + closed (trace w) + held st
   = opened (trace w) + closed (trace w1) + held st1)%nat.
Proof.
  induction calls as [|[name info] calls IH]; intros st w outs st1 w1 Hrun.
  - simpl in Hrun. by simplify_eq.
  - simpl in Hrun.
    destruct (Call name info st w) as [[o st2] w2] eqn:Hcall.
    pose proof (Call_balance _ _ _ _ _ _ _ Hcall) as Hb.
    destruct (Run calls st2 w2) as [[os st3] w3] eqn:Hrest.
    pose proof (IH _ _ _ _ _ Hrest) as Hb'.
    destruct o; simplify_eq; lia.
Qed.

(** *** Repeated initialisation *)

(** C6. [initialize] is idempotent. In every state in which a library is
    loaded, a further call, whatever its arguments and so whatever the
    path, returns [true] at once: the statics and the world are as they
    were, so no library was opened and no symbol resolved. From then on
    no sequence of calls changes the statics or adds a loader event. And
    when the state was reached from the start of the process, the loaded
    library is the one library opened and not closed again: a process
    keeps at most one library load. *)
Theorem initialize_idempotent (st : bridge N) (w : world N) :
  null (dylib_handle st) = false ->
  (forall info,
     Initialize dlopen info st w = (Returned (JsBoolean true), st, w))
  /\ (forall calls outs st1 w1,
        Run calls st w = (outs, st1, w1) ->
        st1 = st /\ loader_events (trace w1) = loader_events (trace w))
  /\ (forall calls outs w0,
        Run calls fresh w0 = (outs, st, w) ->
        (opened (trace w) + closed (trace w0)
         = opened (trace w0) + closed (trace w) + 1)%nat).
Proof.
  intros Hloaded. split; [|split].
  - intros info. by apply Initialize_loaded.
  - intros calls outs st1 w1 Hrun. by eapply Run_loaded.
  - intros calls outs w0 Hrun.
    pose proof (Run_balance _ _ _ _ _ _ Hrun) as Hb.
    unfold held in Hb. rewrite Hloaded in Hb. simpl in Hb. lia.
Qed.

(** *** Failure to open the library *)

(** C8. When no library is loaded and [dlopen] fails on the path given,
    [initialize] throws an error that names the path and the loader's
    diagnostic; the statics are untouched, so [isInitialized()] answers
    [false], and a later [initialize] with a path to a library that has
    the mandatory symbols succeeds. *)
Theorem initialize_load_failure (st : bridge N) (w : world N)
    (path : string) (rest : list js_value) (diagnostic : string) :
  dylib_handle st = None ->
  dlopen path = OpenFailed diagnostic ->
  let w1 := logs [EvDlopen path false] w in
  Initialize dlopen (JsString path :: rest) st w =
    (Thrown (Error ("Failed to load dylib at " +:+ path +:+ ": "
                    +:+ diagnostic)), st, w1)
  /\ IsInitialized [] st w1 = (Returned (JsBoolean false), w1)
  /\ (forall path2 rest2 lib,
        dlopen path2 = Opened lib ->
        mandatory_present lib = true ->
        Initialize dlopen (JsString path2 :: rest2) st w1 =
          (Returned (JsBoolean true), resolve lib,
           logs (EvDlopen path2 true :: resolve_events lib) w1)).
Proof.
  intros Hnone Hfail w1. repeat split.
  - unfold Initialize. rewrite Hnone. simpl. rewrite Hfail.
    by rewrite set_dylib_handle_None.
  - unfold IsInitialized. by rewrite Hnone.
  - intros path2 rest2 lib Hopen Hmand.
    unfold Initialize. rewrite Hnone. simpl. rewrite Hopen.
    unfold mandatory_present in Hmand.
    destruct (node_mlx_load_model lib), (node_mlx_generate lib),
      (node_mlx_free_string lib); done.
Qed.

(** *** Missing mandatory symbols *)



(** *** Before any library was opened *)

Lemma Call_fresh name info (w : world N) :
  opens dlopen (name, info) = false ->
  exists o w1,
    Call name info fresh w = (o, fresh, w1)
    /\ o <> Crashed
    /\ native w1 = native w
    /\ native_calls (trace w1) = native_calls (trace w).
Proof.
  intros Hopens. destruct name; simpl; unfold forward; simpl; eauto 10.
  unfold Initialize. simpl.
  destruct info as [|[] info]; simpl; eauto 10.
  simpl in Hopens. destruct (dlopen s); [done|].
  do 2 eexists. split; [reflexivity|]. repeat split; [done|same_events].
Qed.

Lemma Run_fresh calls : forall (w : world N) outs st1 w1,
  existsb (opens dlopen) calls = false ->
  Run calls fresh w = (outs, st1, w1) ->
  st1 = fresh
  /\ native w1 = native w
  /\ native_calls (trace w1) = native_calls (trace w).
Proof.
  induction calls as [|[name info] calls IH]; intros w outs st1 w1 Hno Hrun.
  - simpl in Hrun. by simplify_eq.
  - simpl in Hno. apply orb_false_iff in Hno as [Hhd Htl].
    destruct (Call_fresh name info w Hhd) as (o & w2 & Hcall & Hok & Hn & Ht).
    simpl in Hrun. rewrite Hcall in Hrun.
    destruct (Run calls fresh w2) as [[os st3] w3] eqn:Hrest.
    destruct (IH _ _ _ _ Htl Hrest) as (-> & Hn' & Ht').
    destruct o; simplify_eq; repeat split; congruence.
Qed.

(** C4, as the code has it. After any sequence of calls in which no
    [initialize] got a library opened (each failed on its argument or on
    [dlopen]), [loadModel], [unloadModel] and [generate] throw their
    not-initialised error and leave the world as it is, so they make no
    native call; [getVersion] does not throw: it returns the fallback
    version, also without a native call. No native call was made during
    the sequence either. *)
Theorem forwarding_before_library_opened calls outs
    (st : bridge N) (w0 w : world N) :
  existsb (opens dlopen) calls = false ->
  Run calls fresh w0 = (outs, st, w) ->
  native_calls (trace w) = native_calls (trace w0)
  /\ (forall info, exists o,
        LoadModel info st w = (o, w) /\ NotInitialized o)
  /\ (forall info, exists o,
        UnloadModel info st w = (o, w) /\ NotInitialized o)
  /\ (forall info, exists o,
        Generate cstr info st w = (o, w) /\ NotInitialized o)
  /\ (forall info,
        GetVersion cstr info st w
        = (Returned (JsString fallback_version), w)).
Proof.
  intros Hno Hrun.
  destruct (Run_fresh _ _ _ _ _ Hno Hrun) as (-> & _ & Ht).
  split; [done|]. unfold NotInitialized.
  repeat split; intros info; simpl; eauto.
Qed.

(** *** States the bridge can be in *)

Lemma Call_sound name info (st : bridge N) w o st1 w1 :
  sound st -> Call name info st w = (o, st1, w1) -> sound st1.
Proof.
  intros Hsound Hcall.
  destruct name; simpl in Hcall; unfold forward in Hcall;
    try (case_match; by simplify_eq).
  unfold Initialize in Hcall.
  destruct (dylib_handle st) eqn:Hh; simpl in Hcall; [by simplify_eq|].
  repeat case_match; simplify_eq; unfold sound; simpl; try done;
    try by rewrite Hh.
  split; [done|]. unfold mandatory_present.
  destruct (node_mlx_load_model lib), (node_mlx_generate lib),
    (node_mlx_free_string lib); done.
Qed.

Lemma Run_sound calls : forall (st : bridge N) w outs st1 w1,
  sound st -> Run calls st w = (outs, st1, w1) -> sound st1.
Proof.
  induction calls as [|[name info] calls IH]; intros st w outs st1 w1 Hs Hrun.
  - simpl in Hrun. by simplify_eq.
  - simpl in Hrun.
    destruct (Call name info st w) as [[o st2] w2] eqn:Hcall.
    pose proof (Call_sound _ _ _ _ _ _ _ Hs Hcall) as Hs2.
    destruct (Run calls st2 w2) as [[os st3] w3] eqn:Hrest.
    pose proof (IH _ _ _ _ _ Hs2 Hrest) as Hs3.
    destruct o; by simplify_eq.
Qed.

(** Whenever [isInitialized()] is true after a sequence of calls from the
    start of the process, the bridge is [initialized]. *)
Lemma Run_initialized calls (w0 : world N) outs st w :
  Run calls fresh w0 = (outs, st, w) ->
  null (dylib_handle st) = false ->
  initialized st = true.
Proof.
  intros Hrun Hloaded.
  assert (sound st) as Hs by (eapply Run_sound; [|exact Hrun]; done).
  unfold sound, initialized, mandatory_present in *.
  destruct (dylib_handle st) as [lib|] eqn:Hh; [|done].
  destruct Hs as [Hst Hm].
  rewrite Hst. simpl.
  destruct (node_mlx_load_model lib), (node_mlx_generate lib),
    (node_mlx_free_string lib); done.
Qed.

(** *** LoadModel *)

Lemma truncate_0 m : truncate m 0 = Z.pos m.
Proof.
  unfold truncate. change (0 <=? 0) with true. cbv iota.
  rewrite Z.pow_0_r. apply Z.mul_1_r.
Qed.

Lemma wrap32_small z : in_int32 z -> wrap32 z = z.
Proof. unfold in_int32, wrap32. intros Hz. rewrite Z.mod_small; lia. Qed.

Lemma ToInt32_Number_of_int32 z :
  in_int32 z -> ToInt32 (Number_of_int32 z) = z.
Proof.
  intros Hz. destruct z as [|m|m]; unfold ToInt32, Number_of_int32.
  - reflexivity.
  - rewrite truncate_0. by apply wrap32_small.
  - rewrite truncate_0. by apply wrap32_small.
Qed.

Lemma LoadModel_call (st : bridge N) w load modelId rest handle n1 :
  fn_load_model st = Some load ->
  load modelId (native w) = (handle, n1) ->
  LoadModel (JsString modelId :: rest) st w =
    (if handle <? 0
     then Thrown (Error ("Failed to load model: " +:+ modelId))
     else Returned (JsNumber (Number_of_int32 handle)),
     log (EvLoadModel modelId handle) n1 w).
Proof.
  intros Hfn Hload. unfold LoadModel. rewrite Hfn. simpl. rewrite Hload.
  by destruct (handle <? 0).
Qed.

(** C7. On an initialized bridge, [loadModel(modelId)] with a string
    calls the load entry point once, with that identifier. A negative
    result makes it throw an error that names the identifier; any other
    result is returned as the number of the same value, which reads back
    as the very integer the native call gave. *)
Theorem loadModel_result (st : bridge N) (w : world N)
    (load : LoadModelFn N) (modelId : string) (rest : list js_value)
    (handle : Z) (n1 : N) :
  initialized st = true ->
  fn_load_model st = Some load ->
  load modelId (native w) = (handle, n1) ->
  let w1 := log (EvLoadModel modelId handle) n1 w in
  (handle < 0 ->
     LoadModel (JsString modelId :: rest) st w =
       (Thrown (Error ("Failed to load model: " +:+ modelId)), w1))
  /\ (0 <= handle ->
       LoadModel (JsString modelId :: rest) st w =
         (Returned (JsNumber (Number_of_int32 handle)), w1)
       /\ (in_int32 handle ->
            Int32Value (JsNumber (Number_of_int32 handle)) = Some handle)).
Proof.
  intros _ Hfn Hload w1.
  rewrite (LoadModel_call _ _ _ _ _ _ _ Hfn Hload). split.
  - intros Hneg. apply Z.ltb_lt in Hneg. by rewrite Hneg.
  - intros Hpos. apply Z.ltb_ge in Hpos. rewrite Hpos. split; [done|].
    intros Hrange. simpl. by rewrite ToInt32_Number_of_int32.
Qed.

(** C10. On an initialized bridge, a native result of 0 is a success:
    [loadModel] returns the number 0 and throws nothing. It throws exactly
    when the native result is strictly negative. *)
Theorem loadModel_zero_handle (st : bridge N) (w : world N)
    (load : LoadModelFn N) (modelId : string) (rest : list js_value)
    (handle : Z) (n1 : N) :
  initialized st = true ->
  fn_load_model st = Some load ->
  load modelId (native w) = (handle, n1) ->
  (handle = 0 ->
     LoadModel (JsString modelId :: rest) st w =
       (Returned (JsNumber (S754_zero false)),
        log (EvLoadModel modelId 0) n1 w))
  /\ ((exists e, (LoadModel (JsString modelId :: rest) st w).1 = Thrown e)
      <-> handle < 0).
Proof.
  intros _ Hfn Hload.
  rewrite (LoadModel_call _ _ _ _ _ _ _ Hfn Hload). split.
  - by intros ->.
  - simpl. destruct (handle <? 0) eqn:Hlt.
    + apply Z.ltb_lt in Hlt. split; [done|]. eauto.
    + apply Z.ltb_ge in Hlt. split; [|lia]. by intros [e He].
Qed.

(** *** UnloadModel *)

(** C2, as the code has it. On an initialized bridge whose unload entry
    point was not resolved, [unloadModel(handle)] with a numeric handle
    throws the error "Library not initialized"; the world is as it was,
    so no native call was made. *)
Theorem unloadModel_unresolved (st : bridge N) (w : world N)
    (h : number) (rest : list js_value) :
  initialized st = true ->
  fn_unload_model st = None ->
  UnloadModel (JsNumber h :: rest) st w =
    (Thrown (Error "Library not initialized"), w).
Proof. intros _ Hfn. unfold UnloadModel. by rewrite Hfn. Qed.

(** *** Generate *)

Lemma Generate_call (st : bridge N) w gen free h prompt rest req p n1 :
  fn_generate st = Some gen ->
  fn_free_string st = Some free ->
  parse_options (JsNumber h :: JsString prompt :: rest) = Some req ->
  gen (ToInt32 h) prompt (maxTokens req) (temperature req) (topP req)
      (native w) = (p, n1) ->
  let call := EvGenerate (ToInt32 h) prompt (maxTokens req) (temperature req)
                         (topP req) p in
  Generate cstr (JsNumber h :: JsString prompt :: rest) st w =
    if p =? 0 then (Thrown (Error "Generate returned null"), log call n1 w)
    else (Returned (JsString (cstr n1 p)),
          {| native := free p n1;
             trace := trace w ++ [call; EvReadString p; EvFreeString p] |}).
Proof.
  intros Hgen Hfree Hreq Hcall call. unfold Generate.
  rewrite Hgen, Hreq, Hfree. simpl. rewrite Hcall.
  destruct (p =? 0); [done|].
  unfold log. simpl. by rewrite <- !app_assoc.
Qed.

(** C3. On an initialized bridge, for a call with a number, a string and
    options that parse: when the generate entry point returns null,
    [generate] throws "Generate returned null" and nothing is freed; when
    it returns a pointer, the string there is read, the pointer is then
    passed to the free-string entry point, once, and the copy read before
    that is what is returned. The read and the free are the last two
    events: the pointer is not touched again. *)
Theorem generate_ownership (st : bridge N) (w : world N)
    (gen : GenerateFn N) (free : FreeStringFn N) (h : number)
    (prompt : string) (rest : list js_value) (req : request)
    (p : ptr) (n1 : N) :
  initialized st = true ->
  fn_generate st = Some gen ->
  fn_free_string st = Some free ->
  parse_options (JsNumber h :: JsString prompt :: rest) = Some req ->
  gen (ToInt32 h) prompt (maxTokens req) (temperature req) (topP req)
      (native w) = (p, n1) ->
  let info := JsNumber h :: JsString prompt :: rest in
  let call := EvGenerate (ToInt32 h) prompt (maxTokens req) (temperature req)
                         (topP req) p in
  (p = 0 ->
     Generate cstr info st w =
       (Thrown (Error "Generate returned null"), log call n1 w)
     /\ frees (trace (Generate cstr info st w).2) = frees (trace w))
  /\ (p <> 0 ->
       Generate cstr info st w =
         (Returned (JsString (cstr n1 p)),
          {| native := free p n1;
             trace := trace w ++ [call; EvReadString p; EvFreeString p] |})
       /\ frees (trace (Generate cstr info st w).2) = S (frees (trace w))).
Proof.
  intros _ Hgen Hfree Hreq Hcall info call. subst info call.
  rewrite (Generate_call _ _ _ _ _ _ _ _ _ _ Hgen Hfree Hreq Hcall).
  split.
  - intros ->. simpl. split; [done|]. rewrite frees_app. unfold frees. simpl. lia.
  - intros Hp. apply Z.eqb_neq in Hp. rewrite Hp. simpl. split; [done|].
    rewrite frees_app. unfold frees. simpl. lia.
Qed.

Lemma parse_options_spec a b options rest :
  well_typed options = true ->
  parse_options (a :: b :: JsObject options :: rest) =
    Some {| maxTokens := spec_maxTokens options;
            temperature := spec_temperature options;
            topP := spec_topP options |}.
Proof.
  unfold well_typed, number_or_absent, parse_options, override,
    spec_maxTokens, spec_temperature, spec_topP.
  simpl. intros Htyped.
  destruct (options !! "maxTokens") as [[]|],
    (options !! "temperature") as [[]|],
    (options !! "topP") as [[]|]; done.
Qed.

Lemma parse_options_none a b rest :
  IsObject (arg rest 0) = false ->
  parse_options (a :: b :: rest) = Some default_request.
Proof.
  unfold parse_options. intros Hobj.
  change (arg (a :: b :: rest) 2) with (arg rest 0). rewrite Hobj.
  by rewrite andb_false_r.
Qed.

Lemma parse_options_insert a b options rest key v :
  key <> "maxTokens" -> key <> "temperature" -> key <> "topP" ->
  parse_options (a :: b :: JsObject (<[key:=v]> options) :: rest) =
  parse_options (a :: b :: JsObject options :: rest).
Proof.
  intros H1 H2 H3. unfold parse_options, override. simpl.
  by rewrite !lookup_insert_ne.
Qed.

Lemma Generate_trace (st : bridge N) w gen free h prompt rest req :
  fn_generate st = Some gen ->
  fn_free_string st = Some free ->
  parse_options (JsNumber h :: JsString prompt :: rest) = Some req ->
  trace (Generate cstr (JsNumber h :: JsString prompt :: rest) st w).2 =
    trace w ++
    generate_events (ToInt32 h) prompt (maxTokens req) (temperature req)
      (topP req)
      (gen (ToInt32 h) prompt (maxTokens req) (temperature req) (topP req)
           (native w)).1.
Proof.
  intros Hgen Hfree Hreq.
  destruct (gen (ToInt32 h) prompt (maxTokens req) (temperature req)
                (topP req) (native w)) as [p n1] eqn:Hcall.
  rewrite (Generate_call _ _ _ _ _ _ _ _ _ _ Hgen Hfree Hreq Hcall).
  unfold generate_events. simpl. by destruct (p =? 0).
Qed.

(** C5. On an initialized bridge, [generate(handle, prompt, options)]
    calls the generate entry point with the handle, the prompt and the
    three parameters, each the value supplied under its key or else its
    default (256, 0.7, 0.9); without an options object all three are the
    defaults. A key other than the three changes nothing at all. With
    [{maxTokens: 10}] the call carries 10, 0.7 and 0.9. *)
Theorem generate_forwards (st : bridge N) (w : world N)
    (gen : GenerateFn N) (free : FreeStringFn N) (h : number)
    (prompt : string) :
  initialized st = true ->
  fn_generate st = Some gen ->
  fn_free_string st = Some free ->
  let forwarded mt t tp :=
    trace w ++
    generate_events (ToInt32 h) prompt mt t tp
      (gen (ToInt32 h) prompt mt t tp (native w)).1 in
  (forall options rest,
     well_typed options = true ->
     trace (Generate cstr (JsNumber h :: JsString prompt :: JsObject options
                           :: rest) st w).2
     = forwarded (spec_maxTokens options) (spec_temperature options)
                 (spec_topP options))
  /\ (forall rest,
        IsObject (arg rest 0) = false ->
        trace (Generate cstr (JsNumber h :: JsString prompt :: rest) st w).2
        = forwarded 256 default_temperature default_topP)
  /\ (forall options rest key v,
        key <> "maxTokens" -> key <> "temperature" -> key <> "topP" ->
        Generate cstr (JsNumber h :: JsString prompt
                       :: JsObject (<[key:=v]> options) :: rest) st w
        = Generate cstr (JsNumber h :: JsString prompt :: JsObject options
                         :: rest) st w)
  /\ (forall d rest,
        ToInt32 d = 10 ->
        trace (Generate cstr (JsNumber h :: JsString prompt
                 :: JsObject {[ "maxTokens" := JsNumber d ]} :: rest) st w).2
        = forwarded 10 default_temperature default_topP).
Proof.
  intros _ Hgen Hfree forwarded. subst forwarded. simpl. repeat split.
  - intros options rest Htyped.
    by rewrite (Generate_trace _ _ _ _ _ _ _ _ Hgen Hfree
                  (parse_options_spec _ _ _ _ Htyped)).
  - intros rest Hobj.
    by rewrite (Generate_trace _ _ _ _ _ _ _ _ Hgen Hfree
                  (parse_options_none _ _ _ Hobj)).
  - intros options rest key v H1 H2 H3. unfold Generate.
    by rewrite parse_options_insert.
  - intros d rest Hd.
    assert (parse_options (JsNumber h :: JsString prompt
              :: JsObject {[ "maxTokens" := JsNumber d ]} :: rest)
            = Some {| maxTokens := 10; temperature := default_temperature;
                      topP := default_topP |}) as Hreq.
    { unfold parse_options, override. simpl.
      rewrite lookup_singleton_eq. simpl. rewrite Hd.
      by rewrite !lookup_singleton_ne. }
    by rewrite (Generate_trace _ _ _ _ _ _ _ _ Hgen Hfree Hreq).
Qed.

(** *** GetVersion *)

(** Where the free-string entry point is resolved, or the version entry
    point is not, [getVersion] returns a string: the fallback when there
    is no entry point or it gives null, the copy of the native string
    otherwise, freed once. *)
Lemma GetVersion_returns info (st : bridge N) w :
  null (fn_free_string st) = false \/ null (fn_get_version st) = true ->
  exists s w1,
    GetVersion cstr info st w = (Returned (JsString s), w1)
    /\ (frees (trace w1) <= S (frees (trace w)))%nat.
Proof.
  intros Hok. unfold GetVersion.
  destruct (fn_get_version st) as [get_version|].
  - destruct Hok as [Hfree|]; [|done].
    destruct (fn_free_string st) as [free|]; [|done].
    destruct (get_version (native w)) as [version n1].
    destruct (version =? 0); do 2 eexists; (split; [reflexivity|]);
      simpl; rewrite ?frees_app; unfold frees; simpl; lia.
  - do 2 eexists. split; [reflexivity|]. lia.
Qed.

(** *** Further properties of [Initialize] *)

(** X1. With no library loaded, [initialize] without a string as first
    argument throws "dylibPath argument required" before touching the
    loader: statics and world are as they were. *)
Theorem initialize_requires_path (st : bridge N) (w : world N)
    (info : list js_value) :
  dylib_handle st = None ->
  IsString (arg info 0) = false ->
  Initialize dlopen info st w =
    (Thrown (Error "dylibPath argument required"), st, w).
Proof.
  intros Hnone Hstr. unfold Initialize. rewrite Hnone, Hstr. simpl.
  by rewrite andb_false_r.
Qed.


Lemma Initialize_outcome (info : list js_value) (st : bridge N)
    (w : world N) :
  let '(o, st1, w1) := Initialize dlopen info st w in
  (o = Returned (JsBoolean true) /\ null (dylib_handle st1) = false)
  \/ (exists e, o = Thrown e /\ null (dylib_handle st1) = true).
Proof.
  unfold Initialize.
  destruct (dylib_handle st) eqn:Hh; simpl.
  - left. by rewrite Hh.
  - repeat case_match; simplify_eq; simpl; rewrite ?Hh; eauto.
Qed.

(** X3. [initialize] returns [true] exactly when a library is loaded
    once it is over; in every other case it throws and the handle is
    null. It never returns [false] and never crashes. *)
Theorem initialize_true_iff_loaded (info : list js_value) (st : bridge N)
    (w : world N) :
  let '(o, st1, w1) := Initialize dlopen info st w in
  (o = Returned (JsBoolean true) /\ null (dylib_handle st1) = false)
  \/ (exists e, o = Thrown e /\ null (dylib_handle st1) = true).
Proof. apply Initialize_outcome. Qed.

Lemma Call_reports_success name info (st : bridge N) w o st1 w1 :
  Call name info st w = (o, st1, w1) ->
  negb (null (dylib_handle st1)) =
  negb (null (dylib_handle st)) || reports_success (name, info) o.
Proof.
  intros Hcall. destruct name;
    try (apply forward_loader_events in Hcall as (-> & _);
         [by rewrite orb_false_r|discriminate]).
  simpl in Hcall.
  pose proof (Initialize_outcome info st w) as Hinit.
  rewrite Hcall in Hinit.
  destruct Hinit as [[-> ->]|(e & -> & ->)]; simpl.
  - by rewrite orb_true_r.
  - unfold Initialize in Hcall.
    destruct (dylib_handle st); simpl in *; [by simplify_eq|done].
Qed.

Lemma initialize_succeeded_nil calls : initialize_succeeded calls [] = false.
Proof. by destruct calls. Qed.

Lemma Run_reports_success calls : forall (st : bridge N) w outs st1 w1,
  Run calls st w = (outs, st1, w1) ->
  negb (null (dylib_handle st1)) =
  negb (null (dylib_handle st)) || initialize_succeeded calls outs.
Proof.
  induction calls as [|[name info] calls IH]; intros st w outs st1 w1 Hrun.
  - simpl in Hrun. simplify_eq. simpl. by rewrite orb_false_r.
  - simpl in Hrun.
    destruct (Call name info st w) as [[o st2] w2] eqn:Hcall.
    pose proof (Call_reports_success _ _ _ _ _ _ _ Hcall) as Hstep.
    destruct (Run calls st2 w2) as [[os st3] w3] eqn:Hrest.
    pose proof (IH _ _ _ _ _ Hrest) as Hind.
    destruct o; simplify_eq; cbn [initialize_succeeded].
    + rewrite Hind, Hstep. by rewrite orb_assoc.
    + rewrite Hind, Hstep. by rewrite orb_assoc.
    + rewrite Hstep, initialize_succeeded_nil. by rewrite orb_false_r.
Qed.

(** X4. After any sequence of calls from the start of the process,
    [isInitialized()] answers [true] exactly when some [initialize] of
    the sequence returned [true]; no other call sets the handle and
    nothing clears it. *)
Theorem isInitialized_iff_initialize_succeeded calls (w0 : world N)
    outs (st : bridge N) (w : world N) :
  Run calls fresh w0 = (outs, st, w) ->
  IsInitialized [] st w =
    (Returned (JsBoolean (initialize_succeeded calls outs)), w).
Proof.
  intros Hrun. unfold IsInitialized.
  by rewrite (Run_reports_success _ _ _ _ _ _ Hrun).
Qed.

(** X5. Whenever [isInitialized()] is true after a sequence of calls from
    the start of the process, the six pointers are exactly what [dlsym]
    gave for the library held, and the load, generate and free-string
    pointers among them are not null. *)
Theorem initialized_table_complete calls (w0 : world N) outs
    (st : bridge N) (w : world N) :
  Run calls fresh w0 = (outs, st, w) ->
  null (dylib_handle st) = false ->
  exists lib,
    st = resolve lib
    /\ null (fn_load_model st) = false
    /\ null (fn_generate st) = false
    /\ null (fn_free_string st) = false.
Proof.
  intros Hrun Hloaded.
  assert (sound st) as Hs by (eapply Run_sound; [|exact Hrun]; done).
  unfold sound, mandatory_present in Hs.
  destruct (dylib_handle st) as [lib|]; [|done].
  destruct Hs as [-> Hm]. exists lib. simpl.
  destruct (node_mlx_load_model lib), (node_mlx_generate lib),
    (node_mlx_free_string lib); done.
Qed.

(** X9. At any time the libraries opened and not closed again are the
    one the bridge holds, if it holds one: while [isInitialized()] is
    false every library that was opened has been closed. *)
Theorem no_library_leak calls (w0 : world N) outs (st : bridge N)
    (w : world N) :
  Run calls fresh w0 = (outs, st, w) ->
  (opened (trace w) + closed (trace w0)
   = opened (trace w0) + closed (trace w) + held st)%nat
  /\ (held st <= 1)%nat
  /\ (null (dylib_handle st) = true ->
      (opened (trace w) + closed (trace w0)
       = opened (trace w0) + closed (trace w))%nat).
Proof.
  intros Hrun. pose proof (Run_balance _ _ _ _ _ _ Hrun) as Hb.
  unfold held in *. simpl in Hb.
  destruct (null (dylib_handle st)); repeat split; try lia; done.
Qed.

(** *** Crashes *)

Lemma Call_clean name info (st : bridge N) w o st1 w1 :
  clean st ->
  opens_incomplete dlopen (name, info) = false ->
  Call name info st w = (o, st1, w1) ->
  clean st1 /\ is_crash o = false.
Proof.
  unfold clean. intros Hclean Hinc Hcall.
  destruct name.
  - simpl in Hcall. unfold Initialize in Hcall.
    destruct Hclean as [->|(lib & -> & Hm)]; simpl in Hcall.
    + destruct info as [|[] info]; simpl in *; simplify_eq;
        try (split; [by left|done]).
      destruct (dlopen s) as [lib|diag]; simplify_eq.
      * apply negb_false_iff in Hinc. pose proof Hinc as Hm.
        unfold mandatory_present in Hm.
        destruct (node_mlx_load_model lib), (node_mlx_generate lib),
          (node_mlx_free_string lib); simpl in *; simplify_eq.
        split; [right; by exists lib|done].
      * split; [by left|done].
    + simplify_eq. split; [right; by exists lib|done].
  - simpl in Hcall. unfold forward, IsInitialized in Hcall. by simplify_eq.
  - simpl in Hcall. unfold forward, LoadModel in Hcall.
    run_operation.
  - simpl in Hcall. unfold forward, UnloadModel in Hcall.
    run_operation.
  - simpl in Hcall. unfold forward, Generate in Hcall.
    destruct Hclean as [->|(lib & -> & Hm)];
      [simpl in Hcall; simplify_eq; split; [by left|done]|].
    unfold mandatory_present in Hm.
    destruct (node_mlx_free_string lib) eqn:Hfree;
      [|by rewrite !andb_false_r in Hm].
    assert (resolve lib = fresh \/
            exists lib0, resolve lib = resolve lib0
                         /\ mandatory_present lib0 = true) as Hc.
    { right. exists lib. unfold mandatory_present. by rewrite Hfree. }
    simpl in Hcall. rewrite Hfree in Hcall. run_operation.
  - simpl in Hcall. unfold forward, IsAvailable in Hcall.
    run_operation.
  - simpl in Hcall. unfold forward, GetVersion in Hcall.
    destruct Hclean as [->|(lib & -> & Hm)];
      [simpl in Hcall; simplify_eq; split; [by left|done]|].
    unfold mandatory_present in Hm.
    destruct (node_mlx_free_string lib) eqn:Hfree;
      [|by rewrite !andb_false_r in Hm].
    assert (resolve lib = fresh \/
            exists lib0, resolve lib = resolve lib0
                         /\ mandatory_present lib0 = true) as Hc.
    { right. exists lib. unfold mandatory_present. by rewrite Hfree. }
    simpl in Hcall. rewrite Hfree in Hcall. run_operation.
Qed.

Lemma Run_clean calls : forall (st : bridge N) w outs st1 w1,
  clean st ->
  existsb (opens_incomplete dlopen) calls = false ->
  Run calls st w = (outs, st1, w1) ->
  clean st1 /\ existsb is_crash outs = false /\ length outs = length calls.
Proof.
  induction calls as [|[name info] calls IH];
    intros st w outs st1 w1 Hclean Hinc Hrun.
  - simpl in Hrun. by simplify_eq.
  - simpl in Hinc. apply orb_false_iff in Hinc as [Hhd Htl].
    simpl in Hrun.
    destruct (Call name info st w) as [[o st2] w2] eqn:Hcall.
    destruct (Call_clean _ _ _ _ _ _ _ Hclean Hhd Hcall) as [Hc2 Ho].
    destruct (Run calls st2 w2) as [[os st3] w3] eqn:Hrest.
    destruct (IH _ _ _ _ _ Hc2 Htl Hrest) as (Hc3 & Hos & Hlen).
    destruct o; simplify_eq; simpl; by rewrite ?Hlen.
Qed.

(** X6. A sequence of calls from the start of the process in which no
    [initialize] is given a library that opens without a mandatory
    symbol never calls through a null function pointer: every call of
    the sequence returns or throws. *)
Theorem no_crash_without_incomplete_library calls (w0 : world N) outs
    (st : bridge N) (w : world N) :
  existsb (opens_incomplete dlopen) calls = false ->
  Run calls fresh w0 = (outs, st, w) ->
  existsb is_crash outs = false /\ length outs = length calls.
Proof.
  intros Hinc Hrun.
  assert (clean (@fresh N)) as Hfresh by (by left).
  destruct (Run_clean _ _ _ _ _ _ Hfresh Hinc Hrun) as (_ & H1 & H2).
  done.
Qed.

(** *** Argument checks *)


(** *** UnloadModel and the handle *)



(** X10. The number [loadModel] returns for a native handle, given back
    to [unloadModel] or to [generate], reaches the native side as that
    same handle. *)
Theorem handle_round_trip (st : bridge N) (w : world N)
    (load : LoadModelFn N) (unload : UnloadModelFn N) (gen : GenerateFn N)
    (free : FreeStringFn N) (modelId prompt : string) (handle : Z) (n1 : N) :
  fn_load_model st = Some load ->
  fn_unload_model st = Some unload ->
  fn_generate st = Some gen ->
  fn_free_string st = Some free ->
  load modelId (native w) = (handle, n1) ->
  0 <= handle ->
  in_int32 handle ->
  exists v w1,
    LoadModel [JsString modelId] st w = (Returned v, w1)
    /\ native w1 = n1
    /\ UnloadModel [v] st w1 =
       (Returned JsUndefined,
        log (EvUnloadModel handle) (unload handle n1) w1)
    /\ trace (Generate cstr [v; JsString prompt] st w1).2 =
       trace w1 ++
       generate_events handle prompt 256 default_temperature default_topP
         (gen handle prompt 256 default_temperature default_topP n1).1.
Proof.
  intros Hload Hunload Hgen Hfree Hcall Hpos Hrange.
  exists (JsNumber (Number_of_int32 handle)),
    (log (EvLoadModel modelId handle) n1 w).
  rewrite (LoadModel_call _ _ _ _ _ _ _ Hload Hcall).
  apply Z.ltb_ge in Hpos. rewrite Hpos.
  split; [done|]. split; [done|]. split.
  - unfold UnloadModel. rewrite Hunload. simpl.
    by rewrite (ToInt32_Number_of_int32 _ Hrange).
  - rewrite (Generate_trace _ _ _ _ _ _ [] default_request Hgen Hfree)
      by done.
    simpl. by rewrite (ToInt32_Number_of_int32 _ Hrange).
Qed.

(** *** IsAvailable and GetVersion *)



(** *** Every string received is freed once *)





End Properties.

(** ** The bridge against the mock library *)

Section Concrete.

Local Abbreviation mock_run := (run Mock.dlopen Mock.cstr false).
Local Abbreviation loaded := (resolve Mock.full).

(** The doubles nearest to 0.7 and 0.9 convert to the two defaults. *)
Example default_temperature_value :
  ToFloat (S754_finite false 0x16666666666666 (-53)) = default_temperature.
Proof. reflexivity. Qed.

Example default_topP_value :
  ToFloat (S754_finite false 0x1ccccccccccccd (-53)) = default_topP.
Proof. reflexivity. Qed.

(** Truncation and wrap-around of [Int32Value]: -3.5, 2^31 and 2^32 + 5. *)
Example ToInt32_values :
  ToInt32 (S754_finite true 7 (-1)) = -3
  /\ ToInt32 (S754_finite false 1 31) = - 2 ^ 31
  /\ ToInt32 (S754_finite false 4294967301 0) = 5
  /\ ToInt32 S754_nan = 0.
Proof. repeat split; reflexivity. Qed.

(** Two calls to [initialize] with valid paths: both report success and
    one library is opened. *)
Example initialize_twice :
  let '(outs, st, w) :=
    mock_run [ (initialize, [JsString "libfull.dylib"]);
               (initialize, [JsString "libminimal.dylib"]) ]
             fresh Mock.start in
  outs = [ Returned (JsBoolean true); Returned (JsBoolean true) ]
  /\ st = loaded
  /\ opened (trace w) = 1%nat.
Proof. vm_compute. repeat split; reflexivity. Qed.

(** C1, at a library that exports [node_mlx_load_model] but neither
    [node_mlx_generate] nor [node_mlx_free_string]. [initialize] throws
    an error naming the two missing symbols and closes the library, and
    [isInitialized()] is false; but [fn_load_model] still holds the
    address resolved in the closed library, so [loadModel] does not
    report that the library is not initialised: it calls through that
    pointer, after the [dlclose], and returns a handle. *)
Theorem missing_symbols_keep_entry_points :
  let '(outs, st, w) :=
    mock_run [ (initialize, [JsString "libpartial.dylib"]);
               (isInitialized, []);
               (loadModel, [JsString "good-id"]) ] fresh Mock.start in
  outs = [ Thrown (Error ("Failed to load functions: "
                          +:+ "node_mlx_generate node_mlx_free_string "));
           Returned (JsBoolean false);
           Returned (JsNumber (S754_finite false 3 0)) ]
  /\ trace w = [ EvDlopen "libpartial.dylib" true;
                 EvDlsym "node_mlx_load_model" true;
                 EvDlsym "node_mlx_unload_model" true;
                 EvDlsym "node_mlx_generate" false;
                 EvDlsym "node_mlx_free_string" false;
                 EvDlsym "node_mlx_is_available" false;
                 EvDlsym "node_mlx_version" true;
                 EvDlclose;
                 EvLoadModel "good-id" 3 ]
  /\ null (dylib_handle st) = true
  /\ null (fn_load_model st) = false
  /\ ~ NotInitialized (Returned (JsNumber (S754_finite false 3 0))).
Proof.
  vm_compute. repeat split; try reflexivity.
  intros [H|H]; discriminate H.
Qed.

(** C9, at the same library, which exports [node_mlx_version] but not
    [node_mlx_free_string]. After the failed [initialize], [getVersion]
    calls through the version pointer kept from the closed library, reads
    the string, and then calls the null [fn_free_string]: it returns
    neither the fallback nor a copy. *)
Theorem getVersion_after_failed_initialize :
  let '(outs, st, w) :=
    mock_run [ (initialize, [JsString "libpartial.dylib"]);
               (getVersion, []) ] fresh Mock.start in
  outs = [ Thrown (Error ("Failed to load functions: "
                          +:+ "node_mlx_generate node_mlx_free_string "));
           Crashed ]
  /\ null (fn_get_version st) = false
  /\ null (fn_free_string st) = true
  /\ native_calls (trace w) = [ EvVersion 1 ]
  /\ frees (trace w) = 0%nat.
Proof. vm_compute. repeat split; reflexivity. Qed.

(** C2 as stated fails: on the bridge initialised with the library that
    has only the three mandatory symbols, [unloadModel(1)] does not
    return: it throws. *)
Lemma unloadModel_unresolved_throws :
  let '(outs, st, w) :=
    mock_run [ (initialize, [JsString "libminimal.dylib"]) ]
             fresh Mock.start in
  outs = [ Returned (JsBoolean true) ]
  /\ initialized st = true
  /\ null (fn_unload_model st) = true
  /\ UnloadModel [Mock.one] st w
     = (Thrown (Error "Library not initialized"), w)
  /\ (UnloadModel [Mock.one] st w).1 <> Returned JsUndefined.
Proof. vm_compute. repeat split; try reflexivity. discriminate. Qed.

Lemma unloadModel_unresolved_witness :
  initialized (resolve Mock.minimal) = true
  /\ fn_unload_model (resolve Mock.minimal) = None
  /\ UnloadModel [Mock.one] (resolve Mock.minimal) Mock.start
     = (Thrown (Error "Library not initialized"), Mock.start).
Proof.
  split; [reflexivity|]. split; [reflexivity|].
  apply (unloadModel_unresolved (resolve Mock.minimal) Mock.start
           (S754_finite false 1 0) []); reflexivity.
Defined.

(** C4 as stated fails: before any [initialize], [getVersion] returns
    the fallback version; it does not fail with a not-initialised
    error. *)
Lemma getVersion_before_initialize :
  GetVersion Mock.cstr [] fresh Mock.start
  = (Returned (JsString "0.1.0"), Mock.start)
  /\ ~ NotInitialized (GetVersion Mock.cstr [] fresh Mock.start).1.
Proof.
  split; [reflexivity|]. simpl. intros [H|H]; discriminate H.
Qed.

Lemma forwarding_before_library_opened_witness :
  let calls := [ (initialize, [JsString "nowhere.dylib"]);
                 (initialize, []);
                 (isAvailable, []);
                 (getVersion, []) ] in
  let r := mock_run calls fresh Mock.start in
  existsb (opens Mock.dlopen) calls = false
  /\ (forall info, exists o,
        LoadModel info r.1.2 r.2 = (o, r.2) /\ NotInitialized o)
  /\ (forall info,
        GetVersion Mock.cstr info r.1.2 r.2
        = (Returned (JsString fallback_version), r.2)).
Proof.
  intros calls r. split; [reflexivity|].
  destruct (forwarding_before_library_opened Mock.dlopen Mock.cstr false
              calls r.1.1 r.1.2 Mock.start r.2 eq_refl eq_refl)
    as (_ & Hload & _ & _ & Hversion).
  split; assumption.
Defined.

Lemma initialize_idempotent_witness :
  null (dylib_handle loaded) = false
  /\ Initialize Mock.dlopen [JsString "libminimal.dylib"] loaded Mock.start
     = (Returned (JsBoolean true), loaded, Mock.start).
Proof.
  split; [reflexivity|].
  apply (initialize_idempotent Mock.dlopen Mock.cstr false loaded Mock.start
           eq_refl).
Defined.

Lemma initialize_load_failure_witness :
  let w1 := logs [EvDlopen "nowhere.dylib" false] Mock.start in
  Mock.dlopen "nowhere.dylib" = OpenFailed "image not found"
  /\ Initialize Mock.dlopen [JsString "nowhere.dylib"] fresh Mock.start
     = (Thrown (Error "Failed to load dylib at nowhere.dylib: image not found"),
        fresh, w1)
  /\ IsInitialized [] fresh w1 = (Returned (JsBoolean false), w1).
Proof.
  intros w1. split; [reflexivity|].
  destruct (initialize_load_failure Mock.dlopen fresh Mock.start
              "nowhere.dylib" [] "image not found" eq_refl eq_refl)
    as (Hthrow & Hinit & _).
  split; assumption.
Defined.

Lemma loadModel_result_witness :
  initialized loaded = true
  /\ (LoadModel [JsString "bad-id"] loaded Mock.start).1
     = Thrown (Error "Failed to load model: bad-id")
  /\ (LoadModel [JsString "good-id"] loaded Mock.start).1
     = Returned (JsNumber (S754_finite false 3 0))
  /\ Int32Value (JsNumber (S754_finite false 3 0)) = Some 3.
Proof.
  split; [reflexivity|].
  destruct (loadModel_result loaded Mock.start Mock.load_model "bad-id" []
              (-1) (native Mock.start) eq_refl eq_refl eq_refl)
    as [Hbad _].
  destruct (loadModel_result loaded Mock.start Mock.load_model "good-id" []
              3 (Mock.load_model "good-id" (native Mock.start)).2
              eq_refl eq_refl eq_refl)
    as [_ Hgood].
  destruct (Hgood ltac:(lia)) as [Hret Hback].
  split; [rewrite (Hbad ltac:(lia)); reflexivity|].
  split; [rewrite Hret; reflexivity|].
  apply Hback. unfold in_int32. lia.
Defined.

Lemma loadModel_zero_handle_witness :
  initialized loaded = true
  /\ LoadModel [JsString "none"] loaded Mock.start
     = (Returned (JsNumber (S754_zero false)),
        log (EvLoadModel "none" 0) (native Mock.start) Mock.start).
Proof.
  split; [reflexivity|].
  destruct (loadModel_zero_handle loaded Mock.start Mock.load_model "none" []
              0 (native Mock.start) eq_refl eq_refl eq_refl)
    as [Hzero _].
  apply Hzero. reflexivity.
Defined.

Lemma generate_ownership_witness :
  let info := [ Mock.four; JsString "hello";
                JsObject {[ "maxTokens" := Mock.ten ]} ] in
  initialized loaded = true
  /\ (Generate Mock.cstr info loaded Mock.start).1
     = Returned (JsString "{}hello")
  /\ frees (trace (Generate Mock.cstr info loaded Mock.start).2) = 1%nat.
Proof.
  intros info. split; [reflexivity|].
  assert (parse_options info
          = Some {| maxTokens := 10; temperature := default_temperature;
                    topP := default_topP |}) as Hparse
    by (vm_compute; reflexivity).
  destruct (generate_ownership Mock.cstr loaded Mock.start Mock.generate
              Mock.free_string (S754_finite false 1 2) "hello"
              [JsObject {[ "maxTokens" := Mock.ten ]}]
              {| maxTokens := 10; temperature := default_temperature;
                 topP := default_topP |}
              1 (Mock.alloc "{}hello" (native Mock.start)).2
              eq_refl eq_refl eq_refl Hparse eq_refl)
    as [_ Hptr].
  destruct (Hptr ltac:(lia)) as [Hret Hfrees].
  unfold info, Mock.four. split; [|exact Hfrees].
  rewrite Hret. reflexivity.
Defined.

Lemma generate_forwards_witness :
  initialized loaded = true
  /\ trace (Generate Mock.cstr
              [ Mock.four; JsString "hello";
                JsObject {[ "maxTokens" := Mock.ten ]} ]
              loaded Mock.start).2
     = [ EvGenerate 4 "hello" 10 default_temperature default_topP 1;
         EvReadString 1; EvFreeString 1 ].
Proof.
  split; [reflexivity|].
  destruct (generate_forwards Mock.cstr loaded Mock.start Mock.generate
              Mock.free_string (S754_finite false 1 2) "hello"
              eq_refl eq_refl eq_refl)
    as (_ & _ & _ & Hten).
  exact (Hten (S754_finite false 5 1) [] eq_refl).
Defined.

(** *** The further properties against the mock library *)

Lemma initialize_requires_path_witness :
  Initialize Mock.dlopen [Mock.one] fresh Mock.start =
    (Thrown (Error "dylibPath argument required"), fresh, Mock.start).
Proof.
  apply (initialize_requires_path Mock.dlopen fresh Mock.start [Mock.one]);
    reflexivity.
Defined.


Lemma isInitialized_iff_initialize_succeeded_witness :
  let calls := [ (initialize, [JsString "nowhere.dylib"]);
                 (isAvailable, []);
                 (initialize, [JsString "libfull.dylib"]);
                 (loadModel, [JsString "good-id"]) ] in
  let r := mock_run calls fresh Mock.start in
  IsInitialized [] r.1.2 r.2 =
    (Returned (JsBoolean (initialize_succeeded calls r.1.1)), r.2)
  /\ initialize_succeeded calls r.1.1 = true.
Proof.
  intros calls r. split; [|reflexivity].
  apply (isInitialized_iff_initialize_succeeded Mock.dlopen Mock.cstr false
           calls Mock.start r.1.1 r.1.2 r.2); reflexivity.
Defined.

Lemma initialized_table_complete_witness :
  let calls := [ (initialize, [JsString "libpartial.dylib"]);
                 (initialize, [JsString "libminimal.dylib"]) ] in
  let r := mock_run calls fresh Mock.start in
  exists lib,
    r.1.2 = resolve lib
    /\ null (fn_load_model r.1.2) = false
    /\ null (fn_generate r.1.2) = false
    /\ null (fn_free_string r.1.2) = false.
Proof.
  intros calls r.
  apply (initialized_table_complete Mock.dlopen Mock.cstr false
           calls Mock.start r.1.1 r.1.2 r.2); reflexivity.
Defined.

Lemma no_library_leak_witness :
  let calls := [ (initialize, [JsString "libpartial.dylib"]);
                 (initialize, [JsString "nowhere.dylib"]);
                 (loadModel, [JsString "good-id"]) ] in
  let r := mock_run calls fresh Mock.start in
  null (dylib_handle r.1.2) = true
  /\ (opened (trace r.2) + closed (trace Mock.start)
      = opened (trace Mock.start) + closed (trace r.2))%nat.
Proof.
  intros calls r. split; [reflexivity|].
  destruct (no_library_leak Mock.dlopen Mock.cstr false
              calls Mock.start r.1.1 r.1.2 r.2 eq_refl)
    as (_ & _ & Hclosed).
  apply Hclosed. reflexivity.
Defined.

Lemma no_crash_without_incomplete_library_witness :
  let calls := [ (getVersion, []);
                 (initialize, [JsString "nowhere.dylib"]);
                 (generate, [Mock.four; JsString "hello"]);
                 (initialize, [JsString "libminimal.dylib"]);
                 (generate, [Mock.four; JsString "hello"]);
                 (getVersion, []) ] in
  let r := mock_run calls fresh Mock.start in
  existsb (opens_incomplete Mock.dlopen) calls = false
  /\ existsb is_crash r.1.1 = false
  /\ length r.1.1 = length calls.
Proof.
  intros calls r. split; [reflexivity|].
  apply (no_crash_without_incomplete_library Mock.dlopen Mock.cstr false
           calls Mock.start r.1.1 r.1.2 r.2); reflexivity.
Defined.



Lemma handle_round_trip_witness :
  let n1 := (Mock.load_model "good-id" (native Mock.start)).2 in
  exists v w1,
    LoadModel [JsString "good-id"] loaded Mock.start = (Returned v, w1)
    /\ native w1 = n1
    /\ UnloadModel [v] loaded w1 =
       (Returned JsUndefined,
        log (EvUnloadModel 3) (Mock.unload_model 3 n1) w1)
    /\ trace (Generate Mock.cstr [v; JsString "hello"] loaded w1).2 =
       trace w1 ++
       generate_events 3 "hello" 256 default_temperature default_topP
         (Mock.generate 3 "hello" 256 default_temperature default_topP n1).1.
Proof.
  intros n1.
  apply (handle_round_trip Mock.cstr loaded Mock.start Mock.load_model
           Mock.unload_model Mock.generate Mock.free_string
           "good-id" "hello" 3 n1);
    try reflexivity; unfold in_int32; lia.
Defined.



End Concrete.
